(** * The BGE-large embedding service (embedding-service/server.py)

    A shallow embedding of the three Flask route handlers [health],
    [embed] and [embed_batch].  The pretrained model behind
    [model.encode] is an external collaborator: the handlers are written
    as programs that may call it, and a concrete encoder is supplied only
    when a program is run. *)

From Stdlib Require Import ZArith String List.
From Stdlib Require Import Floats.PrimFloat.
From stdpp Require Import gmap strings list fin_maps.

Set Warnings "-register-all".
Local Open Scope string_scope.
Local Open Scope Z_scope.

(** ** Python values as produced by the JSON decoder *)

Inductive json : Type :=
| JNull
| JBool (b : bool)
| JInt (z : Z)
| JFloat (f : float)
| JStr (s : string)
| JList (l : list json)
| JDict (m : gmap string json).

(** Python truth value testing, as used by [not text] and [not texts]. *)
Definition truthy (v : json) : bool :=
  match v with
  | JNull => false
  | JBool b => b
  | JInt z => negb (z =? 0)
  | JFloat f => negb (PrimFloat.eqb f 0%float)
  | JStr s => negb (String.eqb s "")
  | JList l => negb (Nat.eqb (length l) 0)
  | JDict m => negb (Nat.eqb (size m) 0)
  end.

(** [isinstance(v, str)] and [isinstance(v, list)]. *)
Definition isinstance_str (v : json) : bool :=
  match v with JStr _ => true | _ => false end.

Definition isinstance_list (v : json) : bool :=
  match v with JList _ => true | _ => false end.

(** [type(v).__name__] *)
Definition type_name (v : json) : string :=
  match v with
  | JNull => "NoneType"
  | JBool _ => "bool"
  | JInt _ => "int"
  | JFloat _ => "float"
  | JStr _ => "str"
  | JList _ => "list"
  | JDict _ => "dict"
  end.

(** A dict display [{k1: v1, ...}]. *)
Definition dict (items : list (string * json)) : json :=
  JDict (list_to_map items).

(** ** Exceptions *)

(** An instance of [Exception] (of any of its subclasses): its class
    name and the text [str(e)] gives.  This is what [except Exception]
    catches. *)
Record exn : Type := Exception { exn_class : string; str : string }.

(** An instance of [BaseException] that is no [Exception]:
    [KeyboardInterrupt], [SystemExit], [GeneratorExit].  An
    [except Exception] clause lets these through. *)
Record base_exn : Type := BaseException { base_class : string; base_str : string }.

Inductive outcome (A : Type) : Type :=
| Ok (a : A)
| Raise (e : exn)
| RaiseBase (b : base_exn).
Arguments Ok {A} a.
Arguments Raise {A} e.
Arguments RaiseBase {A} b.

Definition AttributeError (v : json) (attr : string) : exn :=
  Exception "AttributeError"
    ("'" ++ type_name v ++ "' object has no attribute '" ++ attr ++ "'").

Definition TypeError_len (v : json) : exn :=
  Exception "TypeError" ("object of type '" ++ type_name v ++ "' has no len()").

(** [data.get(key, dflt)]: only a dict has the method. *)
Definition get (data : json) (key : string) (dflt : json) : outcome json :=
  match data with
  | JDict m => Ok (default dflt (m !! key))
  | _ => Raise (AttributeError data "get")
  end.

(** The builtin [len]. *)
Definition len (v : json) : outcome Z :=
  match v with
  | JStr s => Ok (Z.of_nat (String.length s))
  | JList l => Ok (Z.of_nat (length l))
  | JDict m => Ok (Z.of_nat (size m))
  | _ => Raise (TypeError_len v)
  end.

(** ** The arrays [model.encode] returns

    One vector (a single sentence) or a matrix with one row per
    sentence. *)

Inductive ndarray : Type :=
| Array1 (v : list float)
| Array2 (rows : list (list float)).

Definition tolist (a : ndarray) : json :=
  match a with
  | Array1 v => JList (JFloat <$> v)
  | Array2 rows => JList ((fun r => JList (JFloat <$> r)) <$> rows)
  end.

(** [len(a)] on an array is its first dimension. *)
Definition ndarray_len (a : ndarray) : Z :=
  match a with
  | Array1 v => Z.of_nat (length v)
  | Array2 rows => Z.of_nat (length rows)
  end.

(** ** Handler programs

    The keyword arguments of one [model.encode] call; [batch_size] is
    [None] when the call site does not pass it. *)

Record encode_args : Type := EncodeArgs {
  sentences : json;
  batch_size : option json;
  normalize_embeddings : json;
  show_progress_bar : bool
}.

(** A handler either finishes (normally or by raising) or calls the
    model and continues with what the call produced. *)
Inductive py (A : Type) : Type :=
| Done (r : outcome A)
| Encode (args : encode_args) (k : outcome ndarray -> py A).
Arguments Done {A} r.
Arguments Encode {A} args k.

Definition ret {A} (a : A) : py A := Done (Ok a).

Definition lift {A} (r : outcome A) : py A := Done r.

Fixpoint bind {A B} (m : py A) (f : A -> py B) : py B :=
  match m with
  | Done (Ok a) => f a
  | Done (Raise e) => Done (Raise e)
  | Done (RaiseBase b) => Done (RaiseBase b)
  | Encode args k => Encode args (fun r => bind (k r) f)
  end.

(** [try: m except Exception as e: h e].  Only instances of
    [Exception] reach the handler [h]; anything else keeps
    propagating. *)
Fixpoint try_except {A} (m : py A) (h : exn -> py A) : py A :=
  match m with
  | Done (Ok a) => Done (Ok a)
  | Done (Raise e) => h e
  | Done (RaiseBase b) => Done (RaiseBase b)
  | Encode args k => Encode args (fun r => try_except (k r) h)
  end.

#[global] Instance py_ret : MRet py := @ret.
#[global] Instance py_bind : MBind py := fun A B f m => bind m f.

Definition model_encode (args : encode_args) : py ndarray :=
  Encode args (fun r => Done r).

(** ** Requests and responses *)

(** The body of a request as Flask sees it: it decodes to a JSON value,
    or decoding it fails with one of werkzeug's HTTP exceptions
    ([BadRequest], [UnsupportedMediaType]), which are instances of
    [Exception]. *)
Inductive decoded : Type :=
| Decoded (v : json)
| Undecodable (e : exn).

Record request : Type := Request { request_data : decoded }.

(** Evaluating [request.json]. *)
Definition request_json (req : request) : outcome json :=
  match request_data req with
  | Decoded v => Ok v
  | Undecodable e => Raise e
  end.

Record response : Type := Response { body : json; status : Z }.

Definition jsonify (d : json) : response := Response d 200.

(** [return resp, code] *)
Definition with_status (r : response) (code : Z) : response :=
  Response (body r) code.

(** ** The route handlers *)

Definition health : py response :=
  ret (jsonify (dict [("status", JStr "healthy");
                      ("model", JStr "BGE-large-en-v1.5");
                      ("dimensions", JInt 1024)])).

Definition embed (req : request) : py response :=
  try_except
    (data ← lift (request_json req);
     text ← lift (get data "text" JNull);
     normalize ← lift (get data "normalize" (JBool true));
     if negb (truthy text) then
       ret (with_status (jsonify (dict [("error", JStr "Missing 'text' field")])) 400)
     else
       let text := if isinstance_str text then JList [text] else text in
       embeddings ← model_encode (EncodeArgs text None normalize false);
       let embeddings_list := tolist embeddings in
       count ← lift (len embeddings_list);
       ret (jsonify (dict [("embeddings", embeddings_list);
                           ("dimensions", JInt 1024);
                           ("count", JInt count)])))
    (fun e => ret (with_status (jsonify (dict [("error", JStr (str e))])) 500)).

Definition embed_batch (req : request) : py response :=
  try_except
    (data ← lift (request_json req);
     texts ← lift (get data "texts" JNull);
     batch_size ← lift (get data "batch_size" (JInt 32));
     if negb (truthy texts) || negb (isinstance_list texts) then
       ret (with_status
              (jsonify (dict [("error", JStr "Missing or invalid 'texts' field")])) 400)
     else
       embeddings ← model_encode (EncodeArgs texts (Some batch_size) (JBool true) false);
       ret (jsonify (dict [("embeddings", tolist embeddings);
                           ("dimensions", JInt 1024);
                           ("count", JInt (ndarray_len embeddings))])))
    (fun e => ret (with_status (jsonify (dict [("error", JStr (str e))])) 500)).

(** The route table of the application. *)
Inductive route : Type := GET_health | POST_embed | POST_embed_batch.

Definition app (r : route) (req : request) : py response :=
  match r with
  | GET_health => health
  | POST_embed => embed req
  | POST_embed_batch => embed_batch req
  end.

(** ** Running a handler against a model *)

Section Model.
Variable encode : encode_args -> outcome ndarray.

Fixpoint run {A} (m : py A) : outcome A :=
  match m with
  | Done r => r
  | Encode args k => run (k (encode args))
  end.

(** The encode calls made along the run, in order. *)
Fixpoint invocations {A} (m : py A) : list encode_args :=
  match m with
  | Done _ => []
  | Encode args k => args :: invocations (k (encode args))
  end.
End Model.

(** ** The response shapes of the interface *)

Definition ErrorResponse (msg : string) : json :=
  dict [("error", JStr msg)].

Definition EmbeddingResponse (embeddings : json) (count : Z) : json :=
  dict [("embeddings", embeddings); ("dimensions", JInt 1024); ("count", JInt count)].

(** [v.get(key)] for a response body, [None] when the field is absent. *)
Definition field (v : json) (key : string) : option json :=
  match v with JDict m => m !! key | _ => None end.

(** One embedding as it is serialised: 1024 floats. *)
Definition vector_json (v : json) : Prop :=
  exists xs : list float, v = JList (JFloat <$> xs) /\ length xs = 1024%nat.

(** ** Requests by shape *)

(** The request whose body decodes to the JSON object [m]. *)
Definition post (m : gmap string json) : request := Request (Decoded (JDict m)).

(** A body that is no JSON object makes the first lines of a POST handler
    raise: either [request.json] itself, or [data.get]. *)
Definition body_failure (req : request) : option exn :=
  match request_data req with
  | Undecodable e => Some e
  | Decoded (JDict _) => None
  | Decoded v => Some (AttributeError v "get")
  end.

(** The sequence of input texts of a request, a single string counting
    as a one-element sequence on /embed. *)
Definition input_texts (r : route) (m : gmap string json) : option (list json) :=
  match r with
  | GET_health => None
  | POST_embed =>
      match m !! "text" with
      | Some (JStr s) => Some [JStr s]
      | Some (JList l) => Some l
      | _ => None
      end
  | POST_embed_batch =>
      match m !! "texts" with
      | Some (JList l) => Some l
      | _ => None
      end
  end.

(** The encode call each POST handler makes once validation has passed. *)
Definition embed_call (m : gmap string json) : encode_args :=
  let text := default JNull (m !! "text") in
  EncodeArgs (if isinstance_str text then JList [text] else text)
             None (default (JBool true) (m !! "normalize")) false.

Definition embed_batch_call (m : gmap string json) : encode_args :=
  EncodeArgs (default JNull (m !! "texts"))
             (Some (default (JInt 32) (m !! "batch_size"))) (JBool true) false.

(** Validation by route: the call to make when the body [m] passes,
    [None] when the handler answers 400 instead. *)
Definition validated (r : route) (m : gmap string json) : option encode_args :=
  match r with
  | GET_health => None
  | POST_embed =>
      if truthy (default JNull (m !! "text")) then Some (embed_call m) else None
  | POST_embed_batch =>
      if truthy (default JNull (m !! "texts")) && isinstance_list (default JNull (m !! "texts"))
      then Some (embed_batch_call m) else None
  end.

(** How either handler turns the answer of the model into a response. *)
Definition reply (r : outcome ndarray) : outcome response :=
  match r with
  | Ok a => Ok (Response (EmbeddingResponse (tolist a) (ndarray_len a)) 200)
  | Raise e => Ok (Response (ErrorResponse (str e)) 500)
  | RaiseBase b => RaiseBase b
  end.

(** ** The contract of the model *)

(** For a sequence of sentences the model answers, when it answers, with
    one 1024-entry row per sentence. *)
Definition one_vector_per_text (encode : encode_args -> outcome ndarray) : Prop :=
  forall args l a,
    sentences args = JList l ->
    encode args = Ok a ->
    exists rows, a = Array2 rows /\ length rows = length l /\
                 Forall (fun row => length row = 1024%nat) rows.

(** The first unit vector of the model's dimension. *)
Definition unit_vector : list float := 1%float :: repeat 0%float 1023.

(** A usable chunking hint: absent, or an integer above zero. *)
Definition positive_integer (b : option json) : bool :=
  match b with
  | None => true
  | Some (JInt z) => 0 <? z
  | Some _ => false
  end.

(** Modelled from the spec: the Model Wrapper behind [model.encode], an
    external library absent from server.py.  Section 4.1 asks for a
    non-empty sequence of strings and gives one 1024-entry vector of unit
    norm per string, in order; section 3 makes [batch_size] a positive
    integer; malformed input surfaces as an exception.  Every string is
    sent to [unit_vector]. *)
Definition wrapper_encode (args : encode_args) : outcome ndarray :=
  match sentences args with
  | JList l =>
      if negb (forallb isinstance_str l) || Nat.eqb (length l) 0 then
        Raise (Exception "ValueError" "sentences must be a non-empty sequence of strings")
      else if negb (positive_integer (batch_size args)) then
        Raise (Exception "ValueError" "batch_size must be a positive integer")
      else Ok (Array2 ((fun _ => unit_vector) <$> l))
  | _ => Raise (Exception "ValueError" "sentences must be a non-empty sequence of strings")
  end.

(** Sample request bodies. *)
Definition body_hello : gmap string json :=
  {[ "text" := JStr "hello" ]}.

Definition body_abc : gmap string json :=
  {[ "text" := JList [JStr "a"; JStr "b"; JStr "c"] ]}.

Definition body_empty_text : gmap string json :=
  <[ "text" := JStr "" ]> {[ "normalize" := JBool false ]}.

Definition body_numbers : gmap string json :=
  {[ "text" := JList [JInt 1; JInt 2] ]}.

Definition batch_ab (extra : list (string * json)) : gmap string json :=
  <[ "texts" := JList [JStr "a"; JStr "b"] ]> (list_to_map extra).

Definition batch_no_texts : gmap string json :=
  {[ "batch_size" := JInt 8 ]}.

(** The values Python treats as false: [None], [False], zero of either
    numeric type, and the empty string, list and dict. *)
Definition falsy (v : json) : Prop :=
  v = JNull \/ v = JBool false \/ v = JInt 0 \/
  (exists f, v = JFloat f /\ PrimFloat.eqb f 0%float = true) \/
  v = JStr "" \/ v = JList [] \/ v = JDict ∅.

Definition body_five : gmap string json :=
  {[ "text" := JInt 5 ]}.

Definition body_hello_extra : gmap string json :=
  <[ "batch_size" := JInt 0 ]> (<[ "normalize" := JBool true ]> body_hello).

Definition body_ab : gmap string json :=
  {[ "text" := JList [JStr "a"; JStr "b"] ]}.

(** ** The Model Wrapper with its chunking *)

(** The strings of a list of JSON values, [None] when one of them is no
    string. *)
Fixpoint strings_of (l : list json) : option (list string) :=
  match l with
  | [] => Some []
  | JStr s :: l' => cons s <$> strings_of l'
  | _ => None
  end.

(** Consecutive chunks of at most [n] elements; [fuel] bounds their
    number. *)
Fixpoint chunks_upto {A} (fuel n : nat) (l : list A) : list (list A) :=
  match fuel, l with
  | O, _ => []
  | _, [] => []
  | S fuel', _ => take n l :: chunks_upto fuel' n (drop n l)
  end.

Definition chunks {A} (n : nat) (l : list A) : list (list A) :=
  chunks_upto (length l) n l.

(** The chunk length a [batch_size] argument stands for: 32 when it is
    left out, the integer itself when it is above zero. *)
Definition chunk_length (b : option json) : option nat :=
  match b with
  | None => Some 32%nat
  | Some (JInt z) => if 0 <? z then Some (Z.to_nat z) else None
  | Some _ => None
  end.

Section Wrapper.
(** The vector the model has for one text, by normalisation flag. *)
Variable embedding : string -> bool -> list float.

(** Modelled from the spec: the Model Wrapper behind [model.encode], an
    external library absent from server.py, with the internal chunking
    that [batch_size] controls.  Section 4.1 asks for a non-empty
    sequence of strings and gives one vector per string, in order;
    sections 3 and 4.4 make [batch_size] a positive integer, default 32,
    that only sets how the texts are cut into chunks; malformed input
    surfaces as an exception.  The texts are cut into chunks, each chunk
    is encoded text by text, and the results are put together in
    order. *)
Definition chunked_encode (args : encode_args) : outcome ndarray :=
  match sentences args with
  | JList l =>
      match strings_of l with
      | Some (s :: rest) =>
          match chunk_length (batch_size args) with
          | Some n =>
              let flag := truthy (normalize_embeddings args) in
              Ok (Array2 (concat ((fun chunk : list string => (fun t => embedding t flag) <$> chunk)
                                    <$> chunks n (s :: rest))))
          | None => Raise (Exception "ValueError" "batch_size must be a positive integer")
          end
      | _ => Raise (Exception "ValueError" "sentences must be a non-empty sequence of strings")
      end
  | _ => Raise (Exception "ValueError" "sentences must be a non-empty sequence of strings")
  end.
End Wrapper.

(** A sample embedding that tells ["a"] from other texts. *)
Definition sample_embedding (t : string) (flag : bool) : list float :=
  if String.eqb t "a" then unit_vector else 0%float :: 1%float :: repeat 0%float 1022.

(** * Properties *)

(** ** Running the handlers *)

Lemma len_tolist (a : ndarray) : len (tolist a) = Ok (ndarray_len a).
Proof. destruct a; cbn; by rewrite length_fmap. Qed.

Lemma embed_body_failure req e :
  body_failure req = Some e ->
  embed req = Done (Ok (Response (ErrorResponse (str e)) 500)).
Proof.
  destruct req as [[v|e']]; unfold body_failure; cbn.
  - destruct v; intros [= <-]; done.
  - intros [= <-]; done.
Qed.

Lemma embed_batch_body_failure req e :
  body_failure req = Some e ->
  embed_batch req = Done (Ok (Response (ErrorResponse (str e)) 500)).
Proof.
  destruct req as [[v|e']]; unfold body_failure; cbn.
  - destruct v; intros [= <-]; done.
  - intros [= <-]; done.
Qed.

Lemma body_failure_None req :
  body_failure req = None -> exists m, req = post m.
Proof.
  destruct req as [[v|e']]; unfold body_failure; cbn; [|done].
  destruct v; try done. intros _. by eexists.
Qed.

Section Handlers.
Variable encode : encode_args -> outcome ndarray.

Lemma run_embed_post (m : gmap string json) :
  run encode (embed (post m)) =
    if truthy (default JNull (m !! "text"))
    then reply (encode (embed_call m))
    else Ok (Response (ErrorResponse "Missing 'text' field") 400).
Proof.
  unfold embed, post, embed_call; cbn.
  destruct (truthy (default JNull (m !! "text"))); cbn; [|done].
  destruct (encode _) as [a|e|b]; cbn; [|done|done].
  by rewrite len_tolist.
Qed.

Lemma invocations_embed_post (m : gmap string json) :
  invocations encode (embed (post m)) =
    if truthy (default JNull (m !! "text")) then [embed_call m] else [].
Proof.
  unfold embed, post, embed_call; cbn.
  destruct (truthy (default JNull (m !! "text"))); cbn; [|done].
  destruct (encode _) as [a|e|b]; cbn; [|done|done].
  by rewrite len_tolist.
Qed.

Lemma run_embed_batch_post (m : gmap string json) :
  run encode (embed_batch (post m)) =
    if truthy (default JNull (m !! "texts")) && isinstance_list (default JNull (m !! "texts"))
    then reply (encode (embed_batch_call m))
    else Ok (Response (ErrorResponse "Missing or invalid 'texts' field") 400).
Proof.
  unfold embed_batch, post, embed_batch_call; cbn.
  destruct (truthy _), (isinstance_list _); cbn; try done.
  by destruct (encode _).
Qed.

Lemma invocations_embed_batch_post (m : gmap string json) :
  invocations encode (embed_batch (post m)) =
    if truthy (default JNull (m !! "texts")) && isinstance_list (default JNull (m !! "texts"))
    then [embed_batch_call m] else [].
Proof.
  unfold embed_batch, post, embed_batch_call; cbn.
  destruct (truthy _), (isinstance_list _); cbn; try done.
  by destruct (encode _).
Qed.
End Handlers.

Lemma truthy_list_nonempty (l : list json) : l <> [] -> truthy (JList l) = true.
Proof. by destruct l. Qed.

Lemma truthy_str_nonempty (s : string) : s <> "" -> truthy (JStr s) = true.
Proof. by destruct s. Qed.

Lemma wrapper_encode_contract : one_vector_per_text wrapper_encode.
Proof.
  intros [s b n p] l a; cbn; intros ->; unfold wrapper_encode; cbn.
  destruct (_ || _); [done|].
  destruct (negb _); [done|].
  intros [= <-]. eexists; split; [done|].
  rewrite length_fmap; split; [done|].
  apply Forall_fmap, Forall_forall; intros x _. done.
Qed.

(** ** GET /health *)

(** C8: whatever the request and whatever the model, GET /health answers
    with status 200 and exactly the fixed body
    [{"status": "healthy", "model": "BGE-large-en-v1.5", "dimensions": 1024}];
    it cannot raise and it never calls the model. *)
Theorem health_fixed_descriptor :
  forall (encode : encode_args -> outcome ndarray) (req : request),
    app GET_health req =
      Done (Ok (Response (dict [("status", JStr "healthy");
                                ("model", JStr "BGE-large-en-v1.5");
                                ("dimensions", JInt 1024)]) 200)) /\
    run encode (app GET_health req) =
      Ok (Response (dict [("status", JStr "healthy");
                          ("model", JStr "BGE-large-en-v1.5");
                          ("dimensions", JInt 1024)]) 200) /\
    invocations encode (app GET_health req) = [].
Proof. intros encode req. by repeat split. Qed.

(** ** POST /embed *)

(** C3: when the body of a POST /embed request is a JSON object without a
    ['text'] field, or with ['text'] the empty string or the empty
    sequence, the handler answers 400 with the error body
    ["Missing 'text' field"] and the model is not called. *)
Theorem embed_missing_text :
  forall (encode : encode_args -> outcome ndarray) (m : gmap string json),
    m !! "text" = None \/ m !! "text" = Some (JStr "") \/ m !! "text" = Some (JList []) ->
    run encode (embed (post m)) =
      Ok (Response (ErrorResponse "Missing 'text' field") 400) /\
    invocations encode (embed (post m)) = [].
Proof.
  intros encode m H.
  rewrite run_embed_post, invocations_embed_post.
  by destruct H as [-> | [-> | ->]].
Qed.

Lemma embed_missing_text_witness :
  (body_empty_text !! "text" = None \/ body_empty_text !! "text" = Some (JStr "") \/
   body_empty_text !! "text" = Some (JList [])) /\
  run wrapper_encode (embed (post body_empty_text)) =
    Ok (Response (ErrorResponse "Missing 'text' field") 400) /\
  invocations wrapper_encode (embed (post body_empty_text)) = [].
Proof.
  assert (H : body_empty_text !! "text" = None \/
              body_empty_text !! "text" = Some (JStr "") \/
              body_empty_text !! "text" = Some (JList [])).
  { right; left. vm_compute. reflexivity. }
  split; [exact H | exact (embed_missing_text wrapper_encode body_empty_text H)].
Defined.

(** C4: on a POST /embed request with a non-empty ['text'], a single
    string [s] is handed to encode as the one-element sequence [[s]], and
    a sequence is handed to encode as it is; in both cases that is the
    only call, with the ['normalize'] field (true when absent) as the
    normalisation flag. *)
Theorem embed_text_to_sequence :
  forall (encode : encode_args -> outcome ndarray) (m : gmap string json) (text : json),
    m !! "text" = Some text ->
    (forall s, text = JStr s -> s <> "" ->
       invocations encode (embed (post m)) =
         [EncodeArgs (JList [JStr s]) None (default (JBool true) (m !! "normalize")) false]) /\
    (forall l, text = JList l -> l <> [] ->
       invocations encode (embed (post m)) =
         [EncodeArgs (JList l) None (default (JBool true) (m !! "normalize")) false]).
Proof.
  intros encode m text Hm; split.
  - intros s -> Hs. rewrite invocations_embed_post; unfold embed_call; rewrite Hm.
    change (default JNull (Some (JStr s))) with (JStr s).
    by rewrite (truthy_str_nonempty s Hs).
  - intros l -> Hl. rewrite invocations_embed_post; unfold embed_call; rewrite Hm.
    change (default JNull (Some (JList l))) with (JList l).
    by rewrite (truthy_list_nonempty l Hl).
Qed.

Lemma embed_text_to_sequence_witness :
  (body_hello !! "text" = Some (JStr "hello") /\ "hello" <> "" /\
   invocations wrapper_encode (embed (post body_hello)) =
     [EncodeArgs (JList [JStr "hello"]) None (JBool true) false]) /\
  (body_abc !! "text" = Some (JList [JStr "a"; JStr "b"; JStr "c"]) /\
   [JStr "a"; JStr "b"; JStr "c"] <> [] /\
   invocations wrapper_encode (embed (post body_abc)) =
     [EncodeArgs (JList [JStr "a"; JStr "b"; JStr "c"]) None (JBool true) false]).
Proof.
  assert (H1 : body_hello !! "text" = Some (JStr "hello")) by (vm_compute; reflexivity).
  assert (H2 : body_abc !! "text" = Some (JList [JStr "a"; JStr "b"; JStr "c"]))
    by (vm_compute; reflexivity).
  assert (N1 : "hello" <> "") by discriminate.
  assert (N2 : [JStr "a"; JStr "b"; JStr "c"] <> []) by discriminate.
  split.
  - split; [exact H1 | split; [exact N1 |]].
    exact (proj1 (embed_text_to_sequence wrapper_encode body_hello _ H1) _ eq_refl N1).
  - split; [exact H2 | split; [exact N2 |]].
    exact (proj2 (embed_text_to_sequence wrapper_encode body_abc _ H2) _ eq_refl N2).
Defined.

(** ** POST /embed/batch *)

(** C5: when ['texts'] is missing from the body of a POST /embed/batch
    request, or is not a sequence, or is the empty sequence, the handler
    answers 400 with an error body and the model is not called. *)
Theorem embed_batch_invalid_texts :
  forall (encode : encode_args -> outcome ndarray) (m : gmap string json),
    m !! "texts" = None \/
    (exists v, m !! "texts" = Some v /\ isinstance_list v = false) \/
    m !! "texts" = Some (JList []) ->
    run encode (embed_batch (post m)) =
      Ok (Response (ErrorResponse "Missing or invalid 'texts' field") 400) /\
    invocations encode (embed_batch (post m)) = [].
Proof.
  intros encode m H.
  rewrite run_embed_batch_post, invocations_embed_batch_post.
  destruct H as [-> | [(v & -> & Hv) | ->]]; [done| |done].
  change (default JNull (Some v)) with v.
  by rewrite Hv, andb_false_r.
Qed.

Lemma embed_batch_invalid_texts_witness :
  (batch_no_texts !! "texts" = None \/
   (exists v, batch_no_texts !! "texts" = Some v /\ isinstance_list v = false) \/
   batch_no_texts !! "texts" = Some (JList [])) /\
  run wrapper_encode (embed_batch (post batch_no_texts)) =
    Ok (Response (ErrorResponse "Missing or invalid 'texts' field") 400) /\
  invocations wrapper_encode (embed_batch (post batch_no_texts)) = [].
Proof.
  assert (H : batch_no_texts !! "texts" = None \/
              (exists v, batch_no_texts !! "texts" = Some v /\ isinstance_list v = false) \/
              batch_no_texts !! "texts" = Some (JList [])).
  { left. vm_compute. reflexivity. }
  split; [exact H | exact (embed_batch_invalid_texts wrapper_encode batch_no_texts H)].
Defined.

(** ** Bodies that are no JSON object *)

(** C9: when the body of a POST /embed or POST /embed/batch request is
    not a JSON object (evaluating [request.json] raises, as for an absent
    or undecodable body, or gives null or any other non-object value),
    the handler answers 500 with an error body carrying the text of the
    exception, never 400, and the model is not called. *)
Theorem non_object_body_is_500 :
  forall (encode : encode_args -> outcome ndarray) (r : route) (req : request),
    r <> GET_health ->
    (forall m, request_json req <> Ok (JDict m)) ->
    exists e,
      body_failure req = Some e /\
      run encode (app r req) = Ok (Response (ErrorResponse (str e)) 500) /\
      invocations encode (app r req) = [].
Proof.
  intros encode r req Hr Hobj.
  destruct (body_failure req) as [e|] eqn:Hf.
  - exists e; split; [done|].
    destruct r; [done| |]; cbn [app].
    + by rewrite (embed_body_failure _ _ Hf).
    + by rewrite (embed_batch_body_failure _ _ Hf).
  - destruct (body_failure_None _ Hf) as [m ->]. by destruct (Hobj m).
Qed.

Lemma non_object_body_is_500_witness :
  (POST_embed <> GET_health /\
   (forall m, request_json (Request (Decoded JNull)) <> Ok (JDict m)) /\
   exists e,
     body_failure (Request (Decoded JNull)) = Some e /\
     run wrapper_encode (app POST_embed (Request (Decoded JNull))) =
       Ok (Response (ErrorResponse (str e)) 500) /\
     invocations wrapper_encode (app POST_embed (Request (Decoded JNull))) = []) /\
  (POST_embed_batch <> GET_health /\
   (forall m, request_json (Request (Undecodable (Exception "BadRequest" "400 Bad Request")))
              <> Ok (JDict m)) /\
   exists e,
     body_failure (Request (Undecodable (Exception "BadRequest" "400 Bad Request"))) = Some e /\
     run wrapper_encode
         (app POST_embed_batch (Request (Undecodable (Exception "BadRequest" "400 Bad Request")))) =
       Ok (Response (ErrorResponse (str e)) 500) /\
     invocations wrapper_encode
         (app POST_embed_batch (Request (Undecodable (Exception "BadRequest" "400 Bad Request")))) = []).
Proof.
  assert (R1 : POST_embed <> GET_health) by discriminate.
  assert (R2 : POST_embed_batch <> GET_health) by discriminate.
  assert (B1 : forall m, request_json (Request (Decoded JNull)) <> Ok (JDict m))
    by (intros m; discriminate).
  assert (B2 : forall m,
             request_json (Request (Undecodable (Exception "BadRequest" "400 Bad Request")))
             <> Ok (JDict m))
    by (intros m; discriminate).
  split.
  - split; [exact R1 | split; [exact B1 |]].
    exact (non_object_body_is_500 wrapper_encode POST_embed _ R1 B1).
  - split; [exact R2 | split; [exact B2 |]].
    exact (non_object_body_is_500 wrapper_encode POST_embed_batch _ R2 B2).
Defined.

(** ** Both POST routes at once *)

Lemma app_post (encode : encode_args -> outcome ndarray) (r : route) (m : gmap string json) :
  r <> GET_health ->
  match validated r m with
  | Some args =>
      invocations encode (app r (post m)) = [args] /\
      run encode (app r (post m)) = reply (encode args)
  | None =>
      invocations encode (app r (post m)) = [] /\
      exists msg, run encode (app r (post m)) = Ok (Response (ErrorResponse msg) 400)
  end.
Proof.
  intros Hr. destruct r; [done| |]; cbn [app validated].
  - rewrite run_embed_post, invocations_embed_post.
    destruct (truthy _); eauto.
  - rewrite run_embed_batch_post, invocations_embed_batch_post.
    destruct (_ && _); eauto.
Qed.

Lemma app_body_failure (encode : encode_args -> outcome ndarray) (r : route) req e :
  r <> GET_health ->
  body_failure req = Some e ->
  invocations encode (app r req) = [] /\
  run encode (app r req) = Ok (Response (ErrorResponse (str e)) 500).
Proof.
  intros Hr Hf. destruct r; [done| |]; cbn [app].
  - by rewrite (embed_body_failure _ _ Hf).
  - by rewrite (embed_batch_body_failure _ _ Hf).
Qed.

Lemma tolist_JList (a : ndarray) :
  exists es, tolist a = JList es /\ ndarray_len a = Z.of_nat (length es).
Proof. destruct a; cbn; eexists; (split; [done|]); by rewrite length_fmap. Qed.

Lemma validated_sentences (r : route) (m : gmap string json) args texts :
  validated r m = Some args ->
  input_texts r m = Some texts ->
  sentences args = JList texts.
Proof.
  destruct r; cbn; [done| |].
  - unfold embed_call. destruct (m !! "text") as [[]|]; cbn; try done.
    + destruct (negb _); [|done]. by intros [= <-] [= <-].
    + destruct (negb _); [|done]. by intros [= <-] [= <-].
  - unfold embed_batch_call. destruct (m !! "texts") as [[]|]; cbn; try done.
    destruct (negb _); [|done]. by intros [= <-] [= <-].
Qed.

Lemma validated_batch_texts (m : gmap string json) args :
  validated POST_embed_batch m = Some args ->
  exists l, m !! "texts" = Some (JList l) /\ l <> [].
Proof.
  cbn. destruct (m !! "texts") as [[]|]; cbn; try done.
  - by rewrite andb_false_r.
  - by rewrite andb_false_r.
  - by rewrite andb_false_r.
  - by rewrite andb_false_r.
  - destruct l; [done|]. intros _. by eexists.
  - by rewrite andb_false_r.
Qed.

(** ** Shape of a successful response *)

(** C1: let the model answer every sequence of sentences with one
    1024-entry row per sentence.  Then a 200 response of /embed or
    /embed/batch has the body [{embeddings, dimensions: 1024, count}]
    with [count] the length of [embeddings]; and when the input is a
    sequence of texts (on /embed a single string counts as the sequence
    holding it; on /embed/batch a success always has such an input) that
    length is the number of input texts and every embedding has 1024
    entries. *)
Theorem success_response_shape :
  forall (encode : encode_args -> outcome ndarray),
    one_vector_per_text encode ->
    forall (r : route) (req : request) (resp : response),
      r <> GET_health ->
      run encode (app r req) = Ok resp ->
      status resp = 200 ->
      exists (m : gmap string json) (es : list json),
        req = post m /\
        body resp = EmbeddingResponse (JList es) (Z.of_nat (length es)) /\
        (r = POST_embed_batch -> is_Some (input_texts r m)) /\
        (forall texts, input_texts r m = Some texts ->
                       length es = length texts /\ Forall vector_json es).
Proof.
  intros encode Hc r req resp Hr Hrun Hst.
  destruct (body_failure req) as [e|] eqn:Hf.
  { destruct (app_body_failure encode r req e Hr Hf) as [_ H].
    rewrite H in Hrun. injection Hrun as <-. done. }
  destruct (body_failure_None _ Hf) as [m ->]. exists m.
  pose proof (app_post encode r m Hr) as H.
  destruct (validated r m) as [args|] eqn:Hv.
  2:{ destruct H as [_ [msg H]]. rewrite H in Hrun. injection Hrun as <-. done. }
  destruct H as [_ H]. rewrite H in Hrun.
  destruct (encode args) as [a|e|b] eqn:He; cbn in Hrun; [|by injection Hrun as <-|done].
  injection Hrun as <-.
  destruct (tolist_JList a) as (es & Hes & Hlen).
  exists es. split; [done|]. split; [by rewrite Hes, Hlen|]. split.
  - intros ->. destruct (validated_batch_texts _ _ Hv) as (l & Hl & _).
    cbn. by rewrite Hl.
  - intros texts Ht.
    destruct (Hc args texts a (validated_sentences _ _ _ _ Hv Ht) He)
      as (rows & -> & Hrows & Hall).
    cbn in Hes. injection Hes as <-. rewrite length_fmap. split; [done|].
    apply Forall_fmap. eapply Forall_impl; [exact Hall|].
    intros row Hrow. by exists row.
Qed.

Lemma success_response_shape_witness :
  one_vector_per_text wrapper_encode /\
  POST_embed <> GET_health /\
  run wrapper_encode (app POST_embed (post body_hello)) =
    Ok (Response (EmbeddingResponse (JList [JList (JFloat <$> unit_vector)]) 1) 200) /\
  status (Response (EmbeddingResponse (JList [JList (JFloat <$> unit_vector)]) 1) 200) = 200 /\
  exists (m : gmap string json) (es : list json),
    post body_hello = post m /\
    body (Response (EmbeddingResponse (JList [JList (JFloat <$> unit_vector)]) 1) 200) =
      EmbeddingResponse (JList es) (Z.of_nat (length es)) /\
    (POST_embed = POST_embed_batch -> is_Some (input_texts POST_embed m)) /\
    (forall texts, input_texts POST_embed m = Some texts ->
                   length es = length texts /\ Forall vector_json es).
Proof.
  assert (Hr : POST_embed <> GET_health) by discriminate.
  assert (Hrun : run wrapper_encode (app POST_embed (post body_hello)) =
            Ok (Response (EmbeddingResponse (JList [JList (JFloat <$> unit_vector)]) 1) 200))
    by (vm_compute; reflexivity).
  assert (Hst : status (Response (EmbeddingResponse
                          (JList [JList (JFloat <$> unit_vector)]) 1) 200) = 200)
    by reflexivity.
  split; [exact wrapper_encode_contract|].
  split; [exact Hr|]. split; [exact Hrun|]. split; [exact Hst|].
  exact (success_response_shape wrapper_encode wrapper_encode_contract
           POST_embed (post body_hello) _ Hr Hrun Hst).
Defined.

(** ** Encode failures *)

(** C7: a request that passes validation (on /embed a ['text'] Python
    treats as true, on /embed/batch a non-empty list of ['texts']) and
    whose call to encode raises an exception gets the answer 500 with the
    error body carrying the text of that exception.  And every response
    of a POST route is all or nothing: either status 200 with the whole
    array encode returned, or an error body with another status and no
    ['embeddings'] field. *)
Theorem encode_failure_is_500 :
  forall (encode : encode_args -> outcome ndarray),
    (forall (m : gmap string json) (text : json) (e : exn),
        m !! "text" = Some text ->
        truthy text = true ->
        encode (EncodeArgs (if isinstance_str text then JList [text] else text) None
                           (default (JBool true) (m !! "normalize")) false) = Raise e ->
        run encode (app POST_embed (post m)) = Ok (Response (ErrorResponse (str e)) 500)) /\
    (forall (m : gmap string json) (l : list json) (e : exn),
        m !! "texts" = Some (JList l) ->
        l <> [] ->
        encode (EncodeArgs (JList l) (Some (default (JInt 32) (m !! "batch_size")))
                           (JBool true) false) = Raise e ->
        run encode (app POST_embed_batch (post m)) =
          Ok (Response (ErrorResponse (str e)) 500)) /\
    (forall (r : route) (req : request) (resp : response),
        r <> GET_health ->
        run encode (app r req) = Ok resp ->
        (exists args a,
            invocations encode (app r req) = [args] /\
            encode args = Ok a /\
            resp = Response (EmbeddingResponse (tolist a) (ndarray_len a)) 200) \/
        (exists msg,
            body resp = ErrorResponse msg /\
            status resp <> 200 /\
            field (body resp) "embeddings" = None)).
Proof.
  intros encode. split; [|split].
  - intros m text e Hm Ht He. cbn [app].
    rewrite run_embed_post. unfold embed_call. rewrite Hm.
    change (default JNull (Some text)) with text.
    by rewrite Ht, He.
  - intros m l e Hm Hl He. cbn [app].
    rewrite run_embed_batch_post. unfold embed_batch_call. rewrite Hm.
    change (default JNull (Some (JList l))) with (JList l).
    rewrite (truthy_list_nonempty l Hl). cbn [andb isinstance_list].
    by rewrite He.
  - intros r req resp Hr Hrun.
    destruct (body_failure req) as [e0|] eqn:Hf.
    { destruct (app_body_failure encode r req e0 Hr Hf) as [_ H].
      rewrite H in Hrun. injection Hrun as <-. right. by exists (str e0). }
    destruct (body_failure_None _ Hf) as [m ->].
    pose proof (app_post encode r m Hr) as H.
    destruct (validated r m) as [args|].
    + destruct H as [Hi H]. rewrite H in Hrun.
      destruct (encode args) as [a|e|b] eqn:He; cbn in Hrun; [| |done].
      * injection Hrun as <-. left. by exists args, a.
      * injection Hrun as <-. right. by exists (str e).
    + destruct H as [_ [msg H]]. rewrite H in Hrun. injection Hrun as <-.
      right. by exists msg.
Qed.

Lemma encode_failure_is_500_witness :
  (body_numbers !! "text" = Some (JList [JInt 1; JInt 2]) /\
   truthy (JList [JInt 1; JInt 2]) = true /\
   wrapper_encode (EncodeArgs (JList [JInt 1; JInt 2]) None
                     (default (JBool true) (body_numbers !! "normalize")) false) =
     Raise (Exception "ValueError" "sentences must be a non-empty sequence of strings") /\
   run wrapper_encode (app POST_embed (post body_numbers)) =
     Ok (Response (ErrorResponse "sentences must be a non-empty sequence of strings") 500)) /\
  (batch_ab [("batch_size", JInt 0)] !! "texts" = Some (JList [JStr "a"; JStr "b"]) /\
   [JStr "a"; JStr "b"] <> [] /\
   wrapper_encode (EncodeArgs (JList [JStr "a"; JStr "b"])
                     (Some (default (JInt 32) (batch_ab [("batch_size", JInt 0)] !! "batch_size")))
                     (JBool true) false) =
     Raise (Exception "ValueError" "batch_size must be a positive integer") /\
   run wrapper_encode (app POST_embed_batch (post (batch_ab [("batch_size", JInt 0)]))) =
     Ok (Response (ErrorResponse "batch_size must be a positive integer") 500)).
Proof.
  assert (Hm : body_numbers !! "text" = Some (JList [JInt 1; JInt 2]))
    by (vm_compute; reflexivity).
  assert (Ht : truthy (JList [JInt 1; JInt 2]) = true) by reflexivity.
  assert (He : wrapper_encode (EncodeArgs (JList [JInt 1; JInt 2]) None
                     (default (JBool true) (body_numbers !! "normalize")) false) =
               Raise (Exception "ValueError"
                        "sentences must be a non-empty sequence of strings"))
    by reflexivity.
  assert (Hm' : batch_ab [("batch_size", JInt 0)] !! "texts" =
                Some (JList [JStr "a"; JStr "b"])) by (vm_compute; reflexivity).
  assert (Hl : [JStr "a"; JStr "b"] <> []) by discriminate.
  assert (He' : wrapper_encode (EncodeArgs (JList [JStr "a"; JStr "b"])
                     (Some (default (JInt 32)
                              (batch_ab [("batch_size", JInt 0)] !! "batch_size")))
                     (JBool true) false) =
                Raise (Exception "ValueError" "batch_size must be a positive integer"))
    by (vm_compute; reflexivity).
  split.
  - split; [exact Hm|]. split; [exact Ht|]. split; [exact He|].
    exact (proj1 (encode_failure_is_500 wrapper_encode) body_numbers _ _ Hm Ht He).
  - split; [exact Hm'|]. split; [exact Hl|]. split; [exact He'|].
    exact (proj1 (proj2 (encode_failure_is_500 wrapper_encode)) _ _ _ Hm' Hl He').
Defined.

(** ** The fields /embed/batch does not read, and the one it forwards *)

Lemma lookup_delete_agree (k k' : string) (m1 m2 : gmap string json) :
  delete k m1 = delete k m2 -> k' <> k -> m1 !! k' = m2 !! k'.
Proof.
  intros H Hk.
  rewrite <- (lookup_delete_ne m1 k k'), <- (lookup_delete_ne m2 k k') by done.
  by rewrite H.
Qed.

(** C2: a /embed/batch request with a non-empty list of ['texts'] makes
    one call to encode, with the normalisation flag set to true; no call
    /embed/batch ever makes has another flag; and two /embed/batch
    requests whose bodies differ at most in a ['normalize'] field make
    the same call and get the same response: the field is never read. *)
Theorem embed_batch_ignores_normalize :
  forall (encode : encode_args -> outcome ndarray),
    (forall (m : gmap string json) (l : list json),
        m !! "texts" = Some (JList l) ->
        l <> [] ->
        invocations encode (embed_batch (post m)) =
          [EncodeArgs (JList l) (Some (default (JInt 32) (m !! "batch_size")))
                      (JBool true) false]) /\
    (forall req args,
        In args (invocations encode (embed_batch req)) ->
        normalize_embeddings args = JBool true) /\
    (forall m1 m2 : gmap string json,
        delete "normalize" m1 = delete "normalize" m2 ->
        invocations encode (embed_batch (post m1)) =
          invocations encode (embed_batch (post m2)) /\
        run encode (embed_batch (post m1)) = run encode (embed_batch (post m2))).
Proof.
  intros encode; split; [|split].
  - intros m l Hm Hl.
    rewrite invocations_embed_batch_post. unfold embed_batch_call. rewrite Hm.
    change (default JNull (Some (JList l))) with (JList l).
    by rewrite (truthy_list_nonempty l Hl).
  - intros req args.
    destruct (body_failure req) as [e|] eqn:Hf.
    { by rewrite (embed_batch_body_failure _ _ Hf). }
    destruct (body_failure_None _ Hf) as [m ->].
    rewrite invocations_embed_batch_post.
    destruct (_ && _); [|done]. by intros [<-|[]].
  - intros m1 m2 H.
    rewrite !invocations_embed_batch_post, !run_embed_batch_post.
    unfold embed_batch_call.
    rewrite (lookup_delete_agree "normalize" "texts" m1 m2 H) by done.
    by rewrite (lookup_delete_agree "normalize" "batch_size" m1 m2 H) by done.
Qed.

Lemma embed_batch_ignores_normalize_witness :
  batch_ab [("normalize", JBool false)] !! "texts" = Some (JList [JStr "a"; JStr "b"]) /\
  [JStr "a"; JStr "b"] <> [] /\
  delete "normalize" (batch_ab [("normalize", JBool false)]) = delete "normalize" (batch_ab []) /\
  invocations wrapper_encode (embed_batch (post (batch_ab [("normalize", JBool false)]))) =
    [EncodeArgs (JList [JStr "a"; JStr "b"]) (Some (JInt 32)) (JBool true) false] /\
  invocations wrapper_encode (embed_batch (post (batch_ab [("normalize", JBool false)]))) =
    invocations wrapper_encode (embed_batch (post (batch_ab []))) /\
  run wrapper_encode (embed_batch (post (batch_ab [("normalize", JBool false)]))) =
    run wrapper_encode (embed_batch (post (batch_ab []))).
Proof.
  assert (Hm : batch_ab [("normalize", JBool false)] !! "texts" =
               Some (JList [JStr "a"; JStr "b"])) by (vm_compute; reflexivity).
  assert (Hl : [JStr "a"; JStr "b"] <> []) by discriminate.
  assert (H : delete "normalize" (batch_ab [("normalize", JBool false)]) =
              delete "normalize" (batch_ab []))
    by (vm_compute; reflexivity).
  split; [exact Hm|]. split; [exact Hl|]. split; [exact H|].
  split; [exact (proj1 (embed_batch_ignores_normalize wrapper_encode) _ _ Hm Hl)|].
  exact (proj2 (proj2 (embed_batch_ignores_normalize wrapper_encode)) _ _ H).
Defined.

(** C10: on /embed/batch with ['texts'] a non-empty sequence, the single
    call to encode carries the ['batch_size'] value of the body exactly as
    it came, whatever its type or sign, and 32 only when the field is
    absent; the status of the response is never 400, and it is 500
    exactly when that call raised an exception.  The one run without a
    response is the call raising something that is no [Exception], which
    the handler lets through. *)
Theorem batch_size_unvalidated :
  forall (encode : encode_args -> outcome ndarray) (m : gmap string json) (l : list json),
    m !! "texts" = Some (JList l) ->
    l <> [] ->
    invocations encode (embed_batch (post m)) =
      [EncodeArgs (JList l) (Some (default (JInt 32) (m !! "batch_size"))) (JBool true) false] /\
    ((exists resp,
        run encode (embed_batch (post m)) = Ok resp /\
        status resp <> 400 /\
        (status resp = 500 <->
         exists e, encode (EncodeArgs (JList l) (Some (default (JInt 32) (m !! "batch_size")))
                                      (JBool true) false) = Raise e)) \/
     (exists b,
        encode (EncodeArgs (JList l) (Some (default (JInt 32) (m !! "batch_size")))
                           (JBool true) false) = RaiseBase b /\
        run encode (embed_batch (post m)) = RaiseBase b)).
Proof.
  intros encode m l Hm Hl.
  rewrite invocations_embed_batch_post, run_embed_batch_post.
  unfold embed_batch_call. rewrite Hm.
  change (default JNull (Some (JList l))) with (JList l).
  rewrite (truthy_list_nonempty l Hl). cbn [andb isinstance_list].
  split; [done|].
  destruct (encode _) as [a|e|b]; cbn.
  - left. eexists; split; [done|]; cbn.
    split; [done|]. split; [done|]. by intros [e [=]].
  - left. eexists; split; [done|]; cbn.
    split; [done|]. split; [by exists e|done].
  - right. by exists b.
Qed.

Lemma batch_size_unvalidated_witness :
  batch_ab [("batch_size", JStr "many")] !! "texts" = Some (JList [JStr "a"; JStr "b"]) /\
  [JStr "a"; JStr "b"] <> [] /\
  invocations wrapper_encode (embed_batch (post (batch_ab [("batch_size", JStr "many")]))) =
    [EncodeArgs (JList [JStr "a"; JStr "b"])
                (Some (default (JInt 32) (batch_ab [("batch_size", JStr "many")] !! "batch_size")))
                (JBool true) false] /\
  ((exists resp,
      run wrapper_encode (embed_batch (post (batch_ab [("batch_size", JStr "many")]))) = Ok resp /\
      status resp <> 400 /\
      (status resp = 500 <->
       exists e, wrapper_encode
                   (EncodeArgs (JList [JStr "a"; JStr "b"])
                      (Some (default (JInt 32)
                               (batch_ab [("batch_size", JStr "many")] !! "batch_size")))
                      (JBool true) false) = Raise e)) \/
   (exists b,
      wrapper_encode
        (EncodeArgs (JList [JStr "a"; JStr "b"])
           (Some (default (JInt 32) (batch_ab [("batch_size", JStr "many")] !! "batch_size")))
           (JBool true) false) = RaiseBase b /\
      run wrapper_encode (embed_batch (post (batch_ab [("batch_size", JStr "many")]))) =
        RaiseBase b)).
Proof.
  assert (Hm : batch_ab [("batch_size", JStr "many")] !! "texts" =
               Some (JList [JStr "a"; JStr "b"])) by (vm_compute; reflexivity).
  assert (Hl : [JStr "a"; JStr "b"] <> []) by discriminate.
  split; [exact Hm|]. split; [exact Hl|].
  exact (batch_size_unvalidated wrapper_encode _ _ Hm Hl).
Defined.

(** ** The chunking of the Model Wrapper *)

Lemma strings_of_fmap (texts : list string) : strings_of (JStr <$> texts) = Some texts.
Proof. induction texts as [|t texts IH]; cbn; [done|]. by rewrite IH. Qed.

Lemma concat_chunks_upto {A} (fuel n : nat) (l : list A) :
  (0 < n)%nat -> (length l <= fuel)%nat -> concat (chunks_upto fuel n l) = l.
Proof.
  intros Hn. revert l. induction fuel as [|fuel IH]; intros l Hl.
  - destruct l; [done|]. cbn in Hl. lia.
  - destruct l as [|x l]; [done|].
    cbn [chunks_upto concat]. rewrite IH.
    + apply take_drop.
    + rewrite length_drop. cbn [length] in *. lia.
Qed.

Lemma concat_chunks {A} (n : nat) (l : list A) : (0 < n)%nat -> concat (chunks n l) = l.
Proof. intros Hn. by apply concat_chunks_upto. Qed.

Lemma concat_fmap_chunks {A B} (f : A -> B) (ls : list (list A)) :
  concat ((fun chunk : list A => f <$> chunk) <$> ls) = f <$> concat ls.
Proof.
  induction ls as [|c ls IH]; cbn; [done|]. by rewrite IH, fmap_app.
Qed.

(** Whatever positive chunk length is asked for, the wrapper answers a
    non-empty sequence of strings with the vectors of its texts, one per
    text and in order. *)
Lemma chunked_encode_texts (embedding : string -> bool -> list float)
    (texts : list string) (b : Z) (flag : json) (bar : bool) :
  texts <> [] ->
  0 < b ->
  chunked_encode embedding (EncodeArgs (JList (JStr <$> texts)) (Some (JInt b)) flag bar) =
    Ok (Array2 ((fun t => embedding t (truthy flag)) <$> texts)).
Proof.
  intros Ht Hb. unfold chunked_encode. cbn [sentences batch_size normalize_embeddings].
  rewrite strings_of_fmap. destruct texts as [|t texts]; [done|].
  cbn [chunk_length]. destruct (Z.ltb_spec 0 b) as [_|]; [|lia].
  cbv zeta. rewrite concat_fmap_chunks, concat_chunks by lia. done.
Qed.

Lemma strings_of_spec (l : list json) :
  match strings_of l with
  | Some texts => forallb isinstance_str l = true /\ l = JStr <$> texts
  | None => forallb isinstance_str l = false
  end.
Proof.
  induction l as [|v l IH]; [done|].
  destruct v; try done. cbn.
  destruct (strings_of l) as [texts|]; cbn; [|done].
  destruct IH as [-> ->]. done.
Qed.

Lemma chunk_length_spec (b : option json) :
  match chunk_length b with
  | Some n => positive_integer b = true /\ (0 < n)%nat
  | None => positive_integer b = false
  end.
Proof.
  destruct b as [[]|]; cbn; try done; [|split; [done|lia]].
  destruct (Z.ltb_spec 0 z); [|done]. split; [done|lia].
Qed.

(** The wrapper used in the examples is the chunked one with every text
    sent to the same vector. *)
Lemma wrapper_encode_chunked (args : encode_args) :
  wrapper_encode args = chunked_encode (fun _ _ => unit_vector) args.
Proof.
  unfold wrapper_encode, chunked_encode.
  destruct (sentences args) as [| | | | |l|]; try done.
  pose proof (strings_of_spec l) as Hl.
  destruct (strings_of l) as [texts|]; [|by rewrite Hl].
  destruct Hl as [-> ->].
  destruct texts as [|t texts]; [done|]. cbn [negb orb length fmap list_fmap Nat.eqb].
  pose proof (chunk_length_spec (batch_size args)) as Hb.
  destruct (chunk_length (batch_size args)) as [n|]; [|by rewrite Hb].
  destruct Hb as [-> Hn]. cbn [negb]. cbv zeta.
  rewrite concat_fmap_chunks, concat_chunks by done.
  do 2 f_equal. by rewrite <- list_fmap_compose.
Qed.

(** C6: against the Model Wrapper of the spec, which cuts the texts into
    chunks of [batch_size] and encodes each text by itself, two
    /embed/batch requests with the same non-empty sequence of texts and
    any two positive integer batch sizes (32 standing for an absent
    field) get the same response: status 200, the vectors of the texts
    in input order, and their number as count. *)
Theorem batch_size_does_not_change_output :
  forall (embedding : string -> bool -> list float) (m1 m2 : gmap string json)
         (texts : list string) (b1 b2 : Z),
    texts <> [] ->
    m1 !! "texts" = Some (JList (JStr <$> texts)) ->
    m2 !! "texts" = Some (JList (JStr <$> texts)) ->
    default (JInt 32) (m1 !! "batch_size") = JInt b1 ->
    default (JInt 32) (m2 !! "batch_size") = JInt b2 ->
    0 < b1 ->
    0 < b2 ->
    run (chunked_encode embedding) (embed_batch (post m1)) =
      Ok (Response (EmbeddingResponse
                      (JList ((fun t => JList (JFloat <$> embedding t true)) <$> texts))
                      (Z.of_nat (length texts))) 200) /\
    run (chunked_encode embedding) (embed_batch (post m2)) =
      run (chunked_encode embedding) (embed_batch (post m1)).
Proof.
  intros embedding m1 m2 texts b1 b2 Ht Hm1 Hm2 Hb1 Hb2 Hp1 Hp2.
  assert (Hne : JStr <$> texts <> []) by (by destruct texts).
  assert (Hrun : forall m b,
             m !! "texts" = Some (JList (JStr <$> texts)) ->
             default (JInt 32) (m !! "batch_size") = JInt b ->
             0 < b ->
             run (chunked_encode embedding) (embed_batch (post m)) =
               Ok (Response (EmbeddingResponse
                               (JList ((fun t => JList (JFloat <$> embedding t true)) <$> texts))
                               (Z.of_nat (length texts))) 200)).
  { intros m b Hm Hb Hp.
    rewrite run_embed_batch_post. unfold embed_batch_call. rewrite Hm, Hb.
    change (default JNull (Some (JList (JStr <$> texts)))) with (JList (JStr <$> texts)).
    rewrite (truthy_list_nonempty _ Hne). cbn [andb isinstance_list].
    rewrite (chunked_encode_texts embedding texts b (JBool true) false Ht Hp).
    cbn [reply tolist ndarray_len truthy].
    by rewrite <- list_fmap_compose, length_fmap. }
  split; [by apply (Hrun m1 b1)|].
  by rewrite (Hrun m1 b1), (Hrun m2 b2).
Qed.

Lemma batch_size_does_not_change_output_witness :
  ["a"; "b"] <> [] /\
  batch_ab [("batch_size", JInt 1)] !! "texts" = Some (JList (JStr <$> ["a"; "b"])) /\
  batch_ab [] !! "texts" = Some (JList (JStr <$> ["a"; "b"])) /\
  default (JInt 32) (batch_ab [("batch_size", JInt 1)] !! "batch_size") = JInt 1 /\
  default (JInt 32) (batch_ab [] !! "batch_size") = JInt 32 /\
  0 < 1 /\ 0 < 32 /\
  run (chunked_encode sample_embedding) (embed_batch (post (batch_ab [("batch_size", JInt 1)]))) =
    Ok (Response (EmbeddingResponse
                    (JList ((fun t => JList (JFloat <$> sample_embedding t true)) <$> ["a"; "b"]))
                    (Z.of_nat (length ["a"; "b"]))) 200) /\
  run (chunked_encode sample_embedding) (embed_batch (post (batch_ab []))) =
    run (chunked_encode sample_embedding) (embed_batch (post (batch_ab [("batch_size", JInt 1)]))).
Proof.
  assert (Ht : ["a"; "b"] <> []) by discriminate.
  assert (Hm1 : batch_ab [("batch_size", JInt 1)] !! "texts" =
                Some (JList (JStr <$> ["a"; "b"]))) by (vm_compute; reflexivity).
  assert (Hm2 : batch_ab [] !! "texts" = Some (JList (JStr <$> ["a"; "b"])))
    by (vm_compute; reflexivity).
  assert (Hb1 : default (JInt 32) (batch_ab [("batch_size", JInt 1)] !! "batch_size") = JInt 1)
    by (vm_compute; reflexivity).
  assert (Hb2 : default (JInt 32) (batch_ab [] !! "batch_size") = JInt 32)
    by (vm_compute; reflexivity).
  assert (Hp1 : 0 < 1) by lia.
  assert (Hp2 : 0 < 32) by lia.
  split; [exact Ht|]. split; [exact Hm1|]. split; [exact Hm2|]. split; [exact Hb1|].
  split; [exact Hb2|]. split; [exact Hp1|]. split; [exact Hp2|].
  exact (batch_size_does_not_change_output sample_embedding _ _ _ 1 32
           Ht Hm1 Hm2 Hb1 Hb2 Hp1 Hp2).
Defined.

(** * Further properties of the handlers *)

Lemma truthy_false_iff (v : json) : truthy v = false <-> falsy v.
Proof.
  unfold falsy; split.
  - destruct v as [|b|z|f|s|l|m]; cbn; intros H.
    + by left.
    + right; left. by subst.
    + right; right; left. apply negb_false_iff, Z.eqb_eq in H. by subst.
    + right; right; right; left. apply negb_false_iff in H. by exists f.
    + do 4 right; left. apply negb_false_iff, String.eqb_eq in H. by subst.
    + do 5 right; left. by destruct l.
    + do 6 right. apply negb_false_iff, Nat.eqb_eq, map_size_empty_iff in H. by subst.
  - intros [-> | [-> | [-> | [(f & -> & Hf) | [-> | [-> | ->]]]]]]; cbn; try done.
    by rewrite Hf.
Qed.

Lemma nonempty_list_iff (v : json) :
  truthy v && isinstance_list v = true <-> exists l, v = JList l /\ l <> [].
Proof.
  split.
  - destruct v as [| | | | |l|]; cbn; rewrite ?andb_false_r; try done.
    destruct l; [done|]. intros _. by eexists.
  - intros (l & -> & Hl). by destruct l.
Qed.

(** No [Exception] leaves a handler.  Every request makes at most one
    call to encode, and it is answered with status 200, 400 or 500 and a
    JSON object as body, a 400 without any call to encode; the one other
    way a run ends is encode raising something that is no [Exception]
    ([KeyboardInterrupt], [SystemExit]), which [except Exception] lets
    through unchanged. *)
Theorem handlers_answer_or_propagate :
  forall (encode : encode_args -> outcome ndarray) (r : route) (req : request),
    (length (invocations encode (app r req)) <= 1)%nat /\
    ((exists resp,
        run encode (app r req) = Ok resp /\
        (status resp = 200 \/ status resp = 400 \/ status resp = 500) /\
        (exists m, body resp = JDict m) /\
        (status resp = 400 -> invocations encode (app r req) = [])) \/
     (exists args b,
        invocations encode (app r req) = [args] /\
        encode args = RaiseBase b /\
        run encode (app r req) = RaiseBase b)).
Proof.
  intros encode r req.
  assert (r = GET_health \/ r <> GET_health) as [->|Hr]
    by (destruct r; (by left) || (by right)).
  { split; [cbn; lia|]. left. eexists; split; [done|]. cbn. repeat split; eauto. }
  destruct (body_failure req) as [e|] eqn:Hf.
  { destruct (app_body_failure encode r req e Hr Hf) as [-> ->].
    split; [cbn; lia|]. left. eexists; split; [done|]. cbn. repeat split; eauto. }
  destruct (body_failure_None _ Hf) as [m ->].
  pose proof (app_post encode r m Hr) as H.
  destruct (validated r m) as [args|].
  - destruct H as [-> ->]. split; [cbn; lia|].
    destruct (encode args) as [a|e|b] eqn:He; cbn.
    + left. eexists; split; [done|]. cbn. repeat split; eauto; done.
    + left. eexists; split; [done|]. cbn. repeat split; eauto; done.
    + right. by exists args, b.
  - destruct H as [-> [msg ->]].
    split; [cbn; lia|]. left. eexists; split; [done|]. cbn. repeat split; eauto.
Qed.

Lemma sigint_encode_propagates :
  run (fun _ => RaiseBase (BaseException "KeyboardInterrupt" ""))
      (app POST_embed (post body_hello)) =
    RaiseBase (BaseException "KeyboardInterrupt" "").
Proof. vm_compute. reflexivity. Qed.

(** POST /embed answers 400 exactly when the body is a JSON object whose
    ['text'] is missing or holds a value Python treats as false: null,
    false, 0, 0.0, the empty string, the empty list or the empty
    object. *)
Theorem embed_400_iff_falsy_text :
  forall (encode : encode_args -> outcome ndarray) (req : request),
    (exists resp, run encode (embed req) = Ok resp /\ status resp = 400) <->
    (exists m, req = post m /\ (m !! "text" = None \/ exists v, m !! "text" = Some v /\ falsy v)).
Proof.
  intros encode req; split.
  - intros (resp & Hrun & Hst).
    destruct (body_failure req) as [e|] eqn:Hf.
    { rewrite (embed_body_failure _ _ Hf) in Hrun. injection Hrun as <-. done. }
    destruct (body_failure_None _ Hf) as [m ->]. exists m; split; [done|].
    rewrite run_embed_post in Hrun.
    destruct (truthy (default JNull (m !! "text"))) eqn:Ht.
    { destruct (encode _); cbn in Hrun; [| |done]; injection Hrun as <-; done. }
    destruct (m !! "text") as [v|]; [|by left].
    right. exists v. split; [done|]. by apply truthy_false_iff.
  - intros (m & -> & H). rewrite run_embed_post.
    assert (truthy (default JNull (m !! "text")) = false) as ->.
    { destruct H as [->|(v & -> & Hv)]; [done|]. by apply truthy_false_iff. }
    by eexists.
Qed.

(** POST /embed/batch answers 400 exactly when the body is a JSON object
    whose ['texts'] is anything but a non-empty list; a bare string is
    refused here although /embed takes one. *)
Theorem embed_batch_400_iff :
  forall (encode : encode_args -> outcome ndarray) (req : request),
    (exists resp, run encode (embed_batch req) = Ok resp /\ status resp = 400) <->
    (exists m, req = post m /\ ~ exists l, m !! "texts" = Some (JList l) /\ l <> []).
Proof.
  intros encode req; split.
  - intros (resp & Hrun & Hst).
    destruct (body_failure req) as [e|] eqn:Hf.
    { rewrite (embed_batch_body_failure _ _ Hf) in Hrun. injection Hrun as <-. done. }
    destruct (body_failure_None _ Hf) as [m ->]. exists m; split; [done|].
    rewrite run_embed_batch_post in Hrun.
    intros (l & Hl & Hne). rewrite Hl in Hrun.
    change (default JNull (Some (JList l))) with (JList l) in Hrun.
    rewrite (truthy_list_nonempty l Hne) in Hrun. cbn [andb isinstance_list] in Hrun.
    destruct (encode _); cbn in Hrun; [| |done]; injection Hrun as <-; done.
  - intros (m & -> & H). rewrite run_embed_batch_post.
    destruct (truthy _ && isinstance_list _) eqn:Hv; [|by eexists].
    apply nonempty_list_iff in Hv as (l & Hl & Hne).
    destruct H. exists l. split; [|done].
    destruct (m !! "texts"); cbn in Hl; [by subst|done].
Qed.

(** POST /embed does not check the type of ['text']: any value Python
    treats as true that is not a string (a number, [true], an object, a
    list of anything) reaches encode exactly as it came, and the answer
    is never a 400 (there is no answer only if the call raises something
    that is no [Exception]). *)
Theorem embed_text_type_unchecked :
  forall (encode : encode_args -> outcome ndarray) (m : gmap string json) (text : json),
    m !! "text" = Some text ->
    truthy text = true ->
    isinstance_str text = false ->
    invocations encode (embed (post m)) =
      [EncodeArgs text None (default (JBool true) (m !! "normalize")) false] /\
    ((exists resp, run encode (embed (post m)) = Ok resp /\ status resp <> 400) \/
     (exists b,
        encode (EncodeArgs text None (default (JBool true) (m !! "normalize")) false) =
          RaiseBase b /\
        run encode (embed (post m)) = RaiseBase b)).
Proof.
  intros encode m text Hm Ht Hs.
  rewrite invocations_embed_post, run_embed_post. unfold embed_call. rewrite Hm.
  change (default JNull (Some text)) with text. rewrite Ht, Hs.
  split; [done|].
  destruct (encode _) as [a|e|b]; cbn.
  - left. eexists; split; [done|]; done.
  - left. eexists; split; [done|]; done.
  - right. by exists b.
Qed.

Lemma embed_text_type_unchecked_witness :
  body_five !! "text" = Some (JInt 5) /\
  truthy (JInt 5) = true /\
  isinstance_str (JInt 5) = false /\
  invocations wrapper_encode (embed (post body_five)) =
    [EncodeArgs (JInt 5) None (default (JBool true) (body_five !! "normalize")) false] /\
  ((exists resp, run wrapper_encode (embed (post body_five)) = Ok resp /\ status resp <> 400) \/
   (exists b,
      wrapper_encode (EncodeArgs (JInt 5) None
                        (default (JBool true) (body_five !! "normalize")) false) =
        RaiseBase b /\
      run wrapper_encode (embed (post body_five)) = RaiseBase b)).
Proof.
  assert (Hm : body_five !! "text" = Some (JInt 5)) by (vm_compute; reflexivity).
  assert (Ht : truthy (JInt 5) = true) by reflexivity.
  assert (Hs : isinstance_str (JInt 5) = false) by reflexivity.
  split; [exact Hm|]. split; [exact Ht|]. split; [exact Hs|].
  exact (embed_text_type_unchecked wrapper_encode body_five (JInt 5) Hm Ht Hs).
Defined.

(** POST /embed reads two things only, [data.get('text')] and
    [data.get('normalize', True)]: two object bodies on which these agree
    (so also a null ['text'] and a missing one, or [normalize: true] and
    none) lead to the same encode call and the same response, whatever
    else they hold. *)
Theorem embed_reads_text_and_normalize :
  forall (encode : encode_args -> outcome ndarray) (m1 m2 : gmap string json),
    default JNull (m1 !! "text") = default JNull (m2 !! "text") ->
    default (JBool true) (m1 !! "normalize") = default (JBool true) (m2 !! "normalize") ->
    invocations encode (embed (post m1)) = invocations encode (embed (post m2)) /\
    run encode (embed (post m1)) = run encode (embed (post m2)).
Proof.
  intros encode m1 m2 Ht Hn.
  rewrite !invocations_embed_post, !run_embed_post. unfold embed_call.
  by rewrite Ht, Hn.
Qed.

Lemma embed_reads_text_and_normalize_witness :
  default JNull (body_hello_extra !! "text") = default JNull (body_hello !! "text") /\
  default (JBool true) (body_hello_extra !! "normalize") =
    default (JBool true) (body_hello !! "normalize") /\
  invocations wrapper_encode (embed (post body_hello_extra)) =
    invocations wrapper_encode (embed (post body_hello)) /\
  run wrapper_encode (embed (post body_hello_extra)) =
    run wrapper_encode (embed (post body_hello)).
Proof.
  assert (Ht : default JNull (body_hello_extra !! "text") =
               default JNull (body_hello !! "text")) by (vm_compute; reflexivity).
  assert (Hn : default (JBool true) (body_hello_extra !! "normalize") =
               default (JBool true) (body_hello !! "normalize")) by (vm_compute; reflexivity).
  split; [exact Ht|]. split; [exact Hn|].
  exact (embed_reads_text_and_normalize wrapper_encode _ _ Ht Hn).
Defined.

(** POST /embed/batch reads two things only, [data.get('texts')] and
    [data.get('batch_size', 32)]: two object bodies on which these agree
    (so also [batch_size: 32] and none) lead to the same encode call and
    the same response, whatever else they hold. *)
Theorem embed_batch_reads_texts_and_batch_size :
  forall (encode : encode_args -> outcome ndarray) (m1 m2 : gmap string json),
    default JNull (m1 !! "texts") = default JNull (m2 !! "texts") ->
    default (JInt 32) (m1 !! "batch_size") = default (JInt 32) (m2 !! "batch_size") ->
    invocations encode (embed_batch (post m1)) = invocations encode (embed_batch (post m2)) /\
    run encode (embed_batch (post m1)) = run encode (embed_batch (post m2)).
Proof.
  intros encode m1 m2 Ht Hb.
  rewrite !invocations_embed_batch_post, !run_embed_batch_post. unfold embed_batch_call.
  by rewrite Ht, Hb.
Qed.

Lemma embed_batch_reads_texts_and_batch_size_witness :
  default JNull (batch_ab [("batch_size", JInt 32); ("text", JStr "x")] !! "texts") =
    default JNull (batch_ab [] !! "texts") /\
  default (JInt 32) (batch_ab [("batch_size", JInt 32); ("text", JStr "x")] !! "batch_size") =
    default (JInt 32) (batch_ab [] !! "batch_size") /\
  invocations wrapper_encode
      (embed_batch (post (batch_ab [("batch_size", JInt 32); ("text", JStr "x")]))) =
    invocations wrapper_encode (embed_batch (post (batch_ab []))) /\
  run wrapper_encode
      (embed_batch (post (batch_ab [("batch_size", JInt 32); ("text", JStr "x")]))) =
    run wrapper_encode (embed_batch (post (batch_ab []))).
Proof.
  assert (Ht : default JNull
                 (batch_ab [("batch_size", JInt 32); ("text", JStr "x")] !! "texts") =
               default JNull (batch_ab [] !! "texts")) by (vm_compute; reflexivity).
  assert (Hb : default (JInt 32)
                 (batch_ab [("batch_size", JInt 32); ("text", JStr "x")] !! "batch_size") =
               default (JInt 32) (batch_ab [] !! "batch_size")) by (vm_compute; reflexivity).
  split; [exact Ht|]. split; [exact Hb|].
  exact (embed_batch_reads_texts_and_batch_size wrapper_encode _ _ Ht Hb).
Defined.

(** On POST /embed a non-empty string and the one-element list holding
    it are interchangeable: same encode call, same response. *)
Theorem embed_string_as_singleton :
  forall (encode : encode_args -> outcome ndarray) (m : gmap string json) (s : string),
    s <> "" ->
    invocations encode (embed (post (<["text" := JStr s]> m))) =
      invocations encode (embed (post (<["text" := JList [JStr s]]> m))) /\
    run encode (embed (post (<["text" := JStr s]> m))) =
      run encode (embed (post (<["text" := JList [JStr s]]> m))).
Proof.
  intros encode m s Hs.
  rewrite !invocations_embed_post, !run_embed_post. unfold embed_call.
  rewrite !lookup_insert_eq, !lookup_insert_ne by done.
  change (default JNull (Some (JStr s))) with (JStr s).
  change (default JNull (Some (JList [JStr s]))) with (JList [JStr s]).
  by rewrite (truthy_str_nonempty s Hs).
Qed.

Lemma embed_string_as_singleton_witness :
  "hello" <> "" /\
  invocations wrapper_encode (embed (post (<["text" := JStr "hello"]> body_abc))) =
    invocations wrapper_encode (embed (post (<["text" := JList [JStr "hello"]]> body_abc))) /\
  run wrapper_encode (embed (post (<["text" := JStr "hello"]> body_abc))) =
    run wrapper_encode (embed (post (<["text" := JList [JStr "hello"]]> body_abc))).
Proof.
  assert (Hs : "hello" <> "") by discriminate.
  split; [exact Hs|].
  exact (embed_string_as_singleton wrapper_encode body_abc "hello" Hs).
Defined.

(** The two endpoints agree on a list: for a non-empty list of texts,
    /embed with normalisation left on and /embed/batch build the same
    response (the two ways of counting, [len] of the converted list and
    [len] of the array, coincide) whenever the model answers alike with
    the batch size left out and with the one /embed/batch forwards. *)
Theorem embed_and_embed_batch_agree :
  forall (encode : encode_args -> outcome ndarray) (m1 m2 : gmap string json) (l : list json),
    l <> [] ->
    m1 !! "text" = Some (JList l) ->
    default (JBool true) (m1 !! "normalize") = JBool true ->
    m2 !! "texts" = Some (JList l) ->
    encode (EncodeArgs (JList l) None (JBool true) false) =
      encode (EncodeArgs (JList l) (Some (default (JInt 32) (m2 !! "batch_size")))
                         (JBool true) false) ->
    run encode (embed (post m1)) = run encode (embed_batch (post m2)).
Proof.
  intros encode m1 m2 l Hl H1 Hn H2 He.
  rewrite run_embed_post, run_embed_batch_post. unfold embed_call, embed_batch_call.
  rewrite H1, H2, Hn.
  change (default JNull (Some (JList l))) with (JList l).
  rewrite (truthy_list_nonempty l Hl). cbn [andb isinstance_list isinstance_str].
  by rewrite He.
Qed.

Lemma embed_and_embed_batch_agree_witness :
  [JStr "a"; JStr "b"] <> [] /\
  body_ab !! "text" = Some (JList [JStr "a"; JStr "b"]) /\
  default (JBool true) (body_ab !! "normalize") = JBool true /\
  batch_ab [] !! "texts" = Some (JList [JStr "a"; JStr "b"]) /\
  wrapper_encode (EncodeArgs (JList [JStr "a"; JStr "b"]) None (JBool true) false) =
    wrapper_encode (EncodeArgs (JList [JStr "a"; JStr "b"])
                      (Some (default (JInt 32) (batch_ab [] !! "batch_size")))
                      (JBool true) false) /\
  run wrapper_encode (embed (post body_ab)) =
    run wrapper_encode (embed_batch (post (batch_ab []))).
Proof.
  assert (Hl : [JStr "a"; JStr "b"] <> []) by discriminate.
  assert (H1 : body_ab !! "text" = Some (JList [JStr "a"; JStr "b"]))
    by (vm_compute; reflexivity).
  assert (Hn : default (JBool true) (body_ab !! "normalize") = JBool true)
    by (vm_compute; reflexivity).
  assert (H2 : batch_ab [] !! "texts" = Some (JList [JStr "a"; JStr "b"]))
    by (vm_compute; reflexivity).
  assert (He : wrapper_encode (EncodeArgs (JList [JStr "a"; JStr "b"]) None (JBool true) false) =
               wrapper_encode (EncodeArgs (JList [JStr "a"; JStr "b"])
                      (Some (default (JInt 32) (batch_ab [] !! "batch_size")))
                      (JBool true) false))
    by (vm_compute; reflexivity).
  split; [exact Hl|]. split; [exact H1|]. split; [exact Hn|]. split; [exact H2|].
  split; [exact He|].
  exact (embed_and_embed_batch_agree wrapper_encode _ _ _ Hl H1 Hn H2 He).
Defined.

(** A 500 from a POST route has exactly two causes: the body was no JSON
    object, or the call to encode raised; and a 200 is answered exactly
    when encode was called and returned an array. *)
Theorem status_500_and_200_causes :
  forall (encode : encode_args -> outcome ndarray) (r : route) (req : request) (resp : response),
    r <> GET_health ->
    run encode (app r req) = Ok resp ->
    (status resp = 500 <->
       (forall m, request_json req <> Ok (JDict m)) \/
       (exists args e, In args (invocations encode (app r req)) /\ encode args = Raise e)) /\
    (status resp = 200 <->
       exists args a, In args (invocations encode (app r req)) /\ encode args = Ok a).
Proof.
  intros encode r req resp Hr Hrun.
  destruct (body_failure req) as [e0|] eqn:Hf.
  { destruct (app_body_failure encode r req e0 Hr Hf) as [Hi H].
    rewrite H in Hrun. injection Hrun as <-. rewrite Hi. cbn. split.
    - split; [|done]. intros _. left. intros m Hm.
      destruct req as [[[]|]]; unfold body_failure, request_json in *; cbn in *;
        congruence.
    - split; [done|]. by intros (args & a & [] & _). }
  destruct (body_failure_None _ Hf) as [m ->].
  assert (Hobj : ~ forall m', request_json (post m) <> Ok (JDict m'))
    by (intros H; by apply (H m)).
  pose proof (app_post encode r m Hr) as H.
  destruct (validated r m) as [args|].
  - destruct H as [Hi H]. rewrite H in Hrun. rewrite Hi.
    destruct (encode args) as [a|e|b] eqn:He; cbn in Hrun; [| |done];
      injection Hrun as <-; cbn; split.
    + split; [done|]. intros [?|(args' & e & [<-|[]] & He')]; [done|congruence].
    + split; [|done]. intros _. exists args, a. split; [by left|done].
    + split; [|done]. intros _. right. exists args, e. split; [by left|done].
    + split; [done|]. intros (args' & a & [<-|[]] & He'). congruence.
  - destruct H as [Hi [msg H]]. rewrite H in Hrun. injection Hrun as <-. rewrite Hi. cbn.
    split.
    + split; [done|]. by intros [?|(args' & e & [] & _)].
    + split; [done|]. by intros (args' & a & [] & _).
Qed.

Lemma status_500_and_200_causes_witness :
  POST_embed_batch <> GET_health /\
  run wrapper_encode (app POST_embed_batch (post (batch_ab [("batch_size", JNull)]))) =
    Ok (Response (ErrorResponse "batch_size must be a positive integer") 500) /\
  (status (Response (ErrorResponse "batch_size must be a positive integer") 500) = 500 <->
     (forall m, request_json (post (batch_ab [("batch_size", JNull)])) <> Ok (JDict m)) \/
     (exists args e,
         In args (invocations wrapper_encode
                    (app POST_embed_batch (post (batch_ab [("batch_size", JNull)])))) /\
         wrapper_encode args = Raise e)).
Proof.
  assert (Hr : POST_embed_batch <> GET_health) by discriminate.
  assert (Hrun : run wrapper_encode
                   (app POST_embed_batch (post (batch_ab [("batch_size", JNull)]))) =
                 Ok (Response (ErrorResponse "batch_size must be a positive integer") 500))
    by (vm_compute; reflexivity).
  split; [exact Hr|]. split; [exact Hrun|].
  exact (proj1 (status_500_and_200_causes wrapper_encode POST_embed_batch _ _ Hr Hrun)).
Defined.
